(** * The package initializer of [blockstack.lib]

    [blockstack/lib/__init__.py] is a list of import statements.  This file
    embeds that list as data, gives the import statements their Python
    meaning over an explicit world of modules, and proves what the
    initializer leaves in the package namespace. *)

From stdpp Require Import base strings list gmap fin_maps.

Open Scope string_scope.
Open Scope list_scope.

(** ** Objects, modules, exceptions *)

(** A value a name can be bound to: a module object, identified by its fully
    qualified name, or any other object, identified by a number. *)
Inductive pyobj :=
| Obj (id : N)
| ModObj (qualname : string).

Inductive pyexn :=
| ImportError (msg : string)
| AttributeError (msg : string)
| OtherError (cls : string).

(** A loaded module: its [__dict__], and its [__all__] when it defines one. *)
Record pymodule := PyModule {
  m_dict : gmap string pyobj;
  m_all : option (list string)
}.

(** What finding and initialising a module gives: the module, or the
    exception its body raised. *)
Inductive load_result :=
| Loaded (md : pymodule)
| Raised (e : pyexn).

(** The modules an import can find: the submodules of the package, by short
    name, and the top-level modules on the path.  A missing key is a module
    that does not exist. *)
Record world := World {
  w_sub : gmap string load_result;
  w_top : gmap string load_result
}.

(** [import m] without a dot resolves package-first under Python 2 and
    top-level only under absolute-import semantics. *)
Inductive import_mode := ImplicitRelative | AbsoluteImport.

Abbreviation namespace := (gmap string pyobj).

(** A module body either runs to its end or stops at an exception; both
    carry the namespace built so far. *)
Inductive outcome :=
| Done (ns : namespace)
| Raise (e : pyexn) (ns : namespace).

(** ** Statements *)

Inductive stmt :=
| FromImportStar (m : string)           (* from .m import *  *)
| FromImport (m : string) (x : string)  (* from .m import x  *)
| Import (m : string).                  (* import m          *)

Definition package : string := "blockstack.lib".

Definition qualified (m : string) : string := package +:+ "." +:+ m.

(** The statements of [__init__.py], in source order. *)
Definition init_body : list stmt :=
  [ FromImportStar "atlas";
    FromImportStar "b40";
    FromImportStar "config";
    FromImportStar "scripts";
    FromImportStar "hashing";
    FromImportStar "snv";
    FromImport "rpc" "BlockstackAPIEndpoint";
    FromImportStar "subdomains";
    FromImportStar "nameset";
    FromImportStar "operations";
    FromImportStar "fast_sync";
    Import "atlas";
    Import "operations";
    Import "nameset";
    Import "storage";
    Import "config";
    Import "fast_sync";
    Import "snv";
    Import "rpc";
    Import "subdomains" ].

(** ** Meaning of the import statements

    An import statement finds its module in the world and then stores names
    in the namespace of the package.  Finding a module yields the loaded
    module or the exception its body raised; what a submodule does while it
    loads is not followed, so the namespace is written by the statements of
    the initializer and by nothing else. *)

Definition no_module (m : string) : pyexn :=
  ImportError ("No module named " +:+ m).

Definition cannot_import (x : string) : pyexn :=
  ImportError ("cannot import name " +:+ x).

Definition no_attribute (x : string) : pyexn :=
  AttributeError ("'module' object has no attribute '" +:+ x +:+ "'").

(** A name is private when it begins with an underscore. *)
Definition is_private (x : string) : bool := String.prefix "_" x.

(** The names [import *] copies: [__all__] when the module defines it,
    otherwise the keys of [__dict__] that are not private. *)
Definition public_names (md : pymodule) : list string :=
  match m_all md with
  | Some names => names
  | None => filter (λ x, is_private x = false) (map_to_list (m_dict md)).*1
  end.

(** The copying loop of [import *]: each name is fetched from the module and
    stored; a name of [__all__] the module does not define stops the loop
    with the names before it already stored. *)
Fixpoint import_all_from (md : pymodule) (names : list string)
    (ns : namespace) : outcome :=
  match names with
  | [] => Done ns
  | x :: rest =>
      match m_dict md !! x with
      | Some v => import_all_from md rest (<[x := v]> ns)
      | None => Raise (no_attribute x) ns
      end
  end.

Definition import_from (md : pymodule) (x : string) (ns : namespace) : outcome :=
  match m_dict md !! x with
  | Some v => Done (<[x := v]> ns)
  | None => Raise (cannot_import x) ns
  end.

(** [from .m import ...] always names the submodule [m] of the package. *)
Definition load_submodule (w : world) (m : string) : load_result :=
  match w_sub w !! m with
  | Some r => r
  | None => Raised (no_module m)
  end.

(** [import m]: which module is found, under its qualified name.  Python 2
    looks in the package first and falls back to the top level when the
    package has no such submodule. *)
Definition find_module (mode : import_mode) (w : world) (m : string)
    : string * load_result :=
  match mode with
  | ImplicitRelative =>
      match w_sub w !! m with
      | Some r => (qualified m, r)
      | None =>
          match w_top w !! m with
          | Some r => (m, r)
          | None => (m, Raised (no_module m))
          end
      end
  | AbsoluteImport =>
      match w_top w !! m with
      | Some r => (m, r)
      | None => (m, Raised (no_module m))
      end
  end.

Definition exec_stmt (mode : import_mode) (w : world) (s : stmt)
    (ns : namespace) : outcome :=
  match s with
  | FromImportStar m =>
      match load_submodule w m with
      | Loaded md => import_all_from md (public_names md) ns
      | Raised e => Raise e ns
      end
  | FromImport m x =>
      match load_submodule w m with
      | Loaded md => import_from md x ns
      | Raised e => Raise e ns
      end
  | Import m =>
      match find_module mode w m with
      | (q, Loaded _) => Done (<[m := ModObj q]> ns)
      | (_, Raised e) => Raise e ns
      end
  end.

Fixpoint exec_body (mode : import_mode) (w : world) (body : list stmt)
    (ns : namespace) : outcome :=
  match body with
  | [] => Done ns
  | s :: rest =>
      match exec_stmt mode w s ns with
      | Done ns' => exec_body mode w rest ns'
      | Raise e ns' => Raise e ns'
      end
  end.

(** ** Reading the statement list *)

Definition star_imported (body : list stmt) : list string :=
  omap (λ s, match s with FromImportStar m => Some m | _ => None end) body.

Definition from_imported (body : list stmt) : list (string * string) :=
  omap (λ s, match s with FromImport m x => Some (m, x) | _ => None end) body.

Definition plain_imported (body : list stmt) : list string :=
  omap (λ s, match s with Import m => Some m | _ => None end) body.

(** The module whose loading a statement triggers, and how that goes. *)
Definition stmt_load (mode : import_mode) (w : world) (s : stmt) : load_result :=
  match s with
  | FromImportStar m | FromImport m _ => load_submodule w m
  | Import m => (find_module mode w m).2
  end.

(** What a statement stores under the name [x] when it completes. *)
Definition binds (mode : import_mode) (w : world) (s : stmt) (x : string)
    : option pyobj :=
  match s with
  | FromImportStar m =>
      match load_submodule w m with
      | Loaded md => if decide (x ∈ public_names md) then m_dict md !! x else None
      | Raised _ => None
      end
  | FromImport m y =>
      match load_submodule w m with
      | Loaded md => if decide (x = y) then m_dict md !! y else None
      | Raised _ => None
      end
  | Import m =>
      if decide (x = m) then Some (ModObj (find_module mode w m).1) else None
  end.

(** The latest statement of a body that stores something under [x] decides
    the value. *)
Fixpoint last_binding (mode : import_mode) (w : world) (body : list stmt)
    (x : string) : option pyobj :=
  match body with
  | [] => None
  | s :: rest =>
      match last_binding mode w rest x with
      | Some v => Some v
      | None => binds mode w s x
      end
  end.


(** The two halves of the initializer. *)
Definition reexports : list stmt := take 11 init_body.
Definition submodule_imports : list stmt := drop 11 init_body.

Global Instance pyobj_eq_dec : EqDecision pyobj.
Proof. solve_decision. Defined.

Global Instance stmt_eq_dec : EqDecision stmt.
Proof. solve_decision. Defined.

(** ** The names the initializer mentions *)

Definition star_modules : list string :=
  ["atlas"; "b40"; "config"; "scripts"; "hashing"; "snv";
   "subdomains"; "nameset"; "operations"; "fast_sync"].

Definition submodule_attrs : list string :=
  ["atlas"; "operations"; "nameset"; "storage"; "config";
   "fast_sync"; "snv"; "rpc"; "subdomains"].

(** ** When the imports can succeed *)

Definition exports_defined (md : pymodule) : bool :=
  forallb (λ x, bool_decide (is_Some (m_dict md !! x))) (public_names md).

(** [from .m import *] can complete: [m] loads and defines what it exports. *)
Definition star_importable (w : world) (m : string) : bool :=
  match w_sub w !! m with
  | Some (Loaded md) => exports_defined md
  | _ => false
  end.

(** [from .m import x] can complete: [m] loads and defines [x]. *)
Definition name_importable (w : world) (m x : string) : bool :=
  match w_sub w !! m with
  | Some (Loaded md) => bool_decide (is_Some (m_dict md !! x))
  | _ => false
  end.

(** The package has a submodule [m] and it loads. *)
Definition submodule_loads (w : world) (m : string) : bool :=
  match w_sub w !! m with
  | Some (Loaded _) => true
  | _ => false
  end.

(** Membership in a literal list, case by case. *)
Ltac list_cases H :=
  repeat (apply elem_of_cons in H as [->|H]); [..|by apply not_elem_of_nil in H].

Ltac in_list := repeat first [apply list_elem_of_here | apply list_elem_of_further].

(** ** Changing one submodule of the world *)

Definition set_submodule (w : world) (m : string) (r : load_result) : world :=
  World (<[m := r]> (w_sub w)) (w_top w).

Definition stmt_module (s : stmt) : string :=
  match s with FromImportStar m | FromImport m _ | Import m => m end.

(** ** Last writer wins among the re-exports *)



(** ** Sample worlds *)

Definition mk_module (l : list (string * pyobj)) : load_result :=
  Loaded (PyModule (list_to_map l) None).

Definition sample_world : world :=
  World
    (list_to_map
       [ ("atlas", mk_module [("atlas_init", Obj 1); ("MAX_PEERS", Obj 2); ("_lock", Obj 3)]);
         ("b40", mk_module [("charset_to_int", Obj 4)]);
         ("config", mk_module [("MAX_PEERS", Obj 5); ("get_config", Obj 6)]);
         ("scripts", mk_module [("is_name_valid", Obj 7)]);
         ("hashing", Loaded (PyModule (list_to_map [("hash_name", Obj 8); ("_helper", Obj 9)])
                                     (Some ["hash_name"])));
         ("snv", mk_module [("snv_lookup", Obj 10)]);
         ("rpc", mk_module [("BlockstackAPIEndpoint", Obj 11); ("rpc_start", Obj 12)]);
         ("subdomains", mk_module [("SubdomainDB", Obj 13)]);
         ("nameset", mk_module [("BlockstackDB", Obj 14)]);
         ("operations", mk_module [("check_register", Obj 15)]);
         ("fast_sync", mk_module [("fast_sync_import", Obj 16)]);
         ("storage", mk_module [("get_zonefile", Obj 17)]) ])
    ∅.

Definition sample_result : outcome :=
  exec_body ImplicitRelative sample_world init_body ∅.

Definition sample_ns : namespace :=
  match sample_result with Done ns | Raise _ ns => ns end.



Definition failing_world : world :=
  set_submodule sample_world "snv" (Raised (OtherError "ValueError")).




(** A module whose [__all__] names something it does not define. *)
Definition broken_all_world : world :=
  World
    (list_to_map
       [ ("atlas", Loaded (PyModule (list_to_map [("a", Obj 1); ("b", Obj 2)])
                                   (Some ["a"; "missing"; "b"]))) ])
    ∅.

Definition sample_storage : pymodule :=
  PyModule (list_to_map [("get_zonefile", Obj 17)]) None.

Definition other_storage : pymodule :=
  PyModule (list_to_map [("put_zonefile", Obj 50); ("MAX_PEERS", Obj 51)]) None.

(** ** Further readings of statements and outcomes *)

(** The namespace an outcome carries, completed or not. *)
Definition outcome_ns (o : outcome) : namespace :=
  match o with Done ns | Raise _ ns => ns end.

(** [import m] can complete: the module found for [m] loads. *)
Definition plain_importable (mode : import_mode) (w : world) (m : string) : bool :=
  match (find_module mode w m).2 with
  | Loaded _ => true
  | Raised _ => false
  end.

Definition stmt_importable (mode : import_mode) (w : world) (s : stmt) : bool :=
  match s with
  | FromImportStar m => star_importable w m
  | FromImport m x => name_importable w m x
  | Import m => plain_importable mode w m
  end.


(** The sample package without its [storage], which is found at the top
    level instead. *)
Definition fallback_world : world :=
  World (delete "storage" (w_sub sample_world))
        (list_to_map [("storage", mk_module [("get_zonefile", Obj 17)])]).


(** Top-level modules named like submodules of the package. *)
Definition shadowed_top : gmap string load_result :=
  list_to_map [("atlas", Raised (OtherError "RuntimeError"));
               ("storage", mk_module [("unrelated", Obj 60)])].

(** The sample package next to top-level modules of the nine names, so
    that the plain imports resolve under either set of rules. *)
Definition dual_world : world :=
  World (w_sub sample_world)
        (list_to_map ((λ m, (m, mk_module [("top_level", Obj 70)])) <$> submodule_attrs)).

(** The sample package without a [storage] submodule. *)
Definition no_storage_world : world :=
  World (delete "storage" (w_sub sample_world)) (w_top sample_world).


(** * Lemmas on the interpreter *)

Section Interpreter.
Context (mode : import_mode) (w : world).

Lemma import_all_from_lookup md names (ns ns' : namespace) x :
  import_all_from md names ns = Done ns' →
  ns' !! x = if decide (x ∈ names) then m_dict md !! x else ns !! x.
Proof.
  revert ns. induction names as [|y names IH]; intros ns H; simpl in H.
  - injection H as <-. rewrite decide_False; [done | apply not_elem_of_nil].
  - destruct (m_dict md !! y) as [v|] eqn:Hy; [|done].
    rewrite (IH _ H). destruct (decide (x ∈ names)) as [Hin|Hnin].
    + rewrite decide_True; [done | by right].
    + destruct (decide (x = y)) as [->|Hne].
      * rewrite decide_True; [|by left]. by rewrite lookup_insert_eq.
      * rewrite decide_False; [by rewrite lookup_insert_ne|].
        intros [?|?]%elem_of_cons; done.
Qed.

Lemma import_all_from_defined md names (ns ns' : namespace) x :
  import_all_from md names ns = Done ns' →
  x ∈ names → is_Some (m_dict md !! x).
Proof.
  revert ns. induction names as [|y names IH]; intros ns H Hin; simpl in H.
  - by apply not_elem_of_nil in Hin.
  - destruct (m_dict md !! y) as [v|] eqn:Hy; [|done].
    apply elem_of_cons in Hin as [->|Hin]; [by rewrite Hy | eauto].
Qed.

Lemma import_all_from_total md names (ns : namespace) :
  (∀ x, x ∈ names → is_Some (m_dict md !! x)) →
  ∃ ns', import_all_from md names ns = Done ns'.
Proof.
  revert ns. induction names as [|y names IH]; intros ns H; simpl; [eauto|].
  destruct (H y) as [v ->]; [by left|]. apply IH. intros; apply H. by right.
Qed.


Lemma exec_stmt_lookup s (ns ns' : namespace) x :
  exec_stmt mode w s ns = Done ns' →
  ns' !! x = match binds mode w s x with Some v => Some v | None => ns !! x end.
Proof.
  destruct s as [m|m y|m]; simpl; intros H.
  - destruct (load_submodule w m) as [md|e]; [|done].
    rewrite (import_all_from_lookup _ _ _ _ x H).
    destruct (decide (x ∈ public_names md)) as [Hin|]; [|done].
    by destruct (import_all_from_defined _ _ _ _ x H Hin) as [v ->].
  - destruct (load_submodule w m) as [md|e]; [|done].
    unfold import_from in H. destruct (m_dict md !! y) as [v|] eqn:Hy; [|done].
    injection H as <-. destruct (decide (x = y)) as [->|Hne].
    + by rewrite lookup_insert_eq.
    + by rewrite lookup_insert_ne.
  - destruct (find_module mode w m) as [q [md|e]]; [|done].
    injection H as <-. simpl. destruct (decide (x = m)) as [->|Hne].
    + by rewrite lookup_insert_eq.
    + by rewrite lookup_insert_ne.
Qed.

Lemma exec_body_lookup body (ns ns' : namespace) x :
  exec_body mode w body ns = Done ns' →
  ns' !! x = match last_binding mode w body x with
             | Some v => Some v
             | None => ns !! x
             end.
Proof.
  revert ns. induction body as [|s body IH]; intros ns H; simpl in *.
  - by injection H as <-.
  - destruct (exec_stmt mode w s ns) as [ns1|e ns1] eqn:Hs; [|done].
    rewrite (IH _ H). destruct (last_binding mode w body x); [done|].
    by apply exec_stmt_lookup.
Qed.

Lemma exec_body_app b1 b2 (ns : namespace) :
  exec_body mode w (b1 ++ b2) ns =
  match exec_body mode w b1 ns with
  | Done ns1 => exec_body mode w b2 ns1
  | Raise e ns1 => Raise e ns1
  end.
Proof.
  revert ns. induction b1 as [|s b1 IH]; intros ns; simpl; [done|].
  destruct (exec_stmt mode w s ns); [apply IH | done].
Qed.

Lemma exec_stmt_raised s (ns : namespace) e :
  stmt_load mode w s = Raised e → exec_stmt mode w s ns = Raise e ns.
Proof.
  destruct s as [m|m y|m]; simpl; intros H; try by rewrite H.
  destruct (find_module mode w m) as [q r]. simpl in H. by subst r.
Qed.

Lemma exec_stmt_done_loaded s (ns ns' : namespace) :
  exec_stmt mode w s ns = Done ns' → ∃ md, stmt_load mode w s = Loaded md.
Proof.
  destruct (stmt_load mode w s) as [md|e] eqn:Hl; [eauto|].
  by rewrite (exec_stmt_raised _ _ _ Hl).
Qed.

(** A body that completes has completed each of its statements. *)
Lemma exec_body_done_stmt body (ns ns' : namespace) s :
  exec_body mode w body ns = Done ns' → s ∈ body →
  ∃ ns1 ns2, exec_stmt mode w s ns1 = Done ns2.
Proof.
  revert ns. induction body as [|s' body IH]; intros ns H Hin; simpl in H.
  - by apply not_elem_of_nil in Hin.
  - destruct (exec_stmt mode w s' ns) as [ns1|e ns1] eqn:Hs; [|done].
    apply elem_of_cons in Hin as [->|Hin]; eauto.
Qed.



End Interpreter.

(** ** The interpreter on the sample worlds *)

Example sample_private_not_copied :
  sample_ns !! "_lock" = None ∧ sample_ns !! "atlas_init" = Some (Obj 1).
Proof. split; vm_compute; reflexivity. Qed.

Example sample_all_respected :
  sample_ns !! "_helper" = None ∧ sample_ns !! "hash_name" = Some (Obj 8).
Proof. split; vm_compute; reflexivity. Qed.

Example sample_later_export_wins :
  sample_ns !! "MAX_PEERS" = Some (Obj 5).
Proof. vm_compute. reflexivity. Qed.

Example sample_storage_bound :
  sample_ns !! "storage" = Some (ModObj "blockstack.lib.storage") ∧
  sample_ns !! "get_zonefile" = None.
Proof. split; vm_compute; reflexivity. Qed.

Example broken_all_stops_midway :
  exec_body ImplicitRelative broken_all_world init_body ∅ =
  Raise (AttributeError "'module' object has no attribute 'missing'")
        {[ "a" := Obj 1 ]}.
Proof. vm_compute. reflexivity. Qed.

Example missing_submodule_raises :
  exec_body ImplicitRelative (World ∅ ∅) init_body ∅ =
  Raise (ImportError "No module named atlas") ∅.
Proof. vm_compute. reflexivity. Qed.

Lemma star_imported_init : star_imported init_body = star_modules.
Proof. reflexivity. Qed.

Lemma from_imported_init :
  from_imported init_body = [("rpc", "BlockstackAPIEndpoint")].
Proof. reflexivity. Qed.

Lemma plain_imported_init : plain_imported init_body = submodule_attrs.
Proof. reflexivity. Qed.

Lemma init_body_split : init_body = reexports ++ submodule_imports.
Proof. reflexivity. Qed.

Lemma submodule_imports_eq : submodule_imports = Import <$> submodule_attrs.
Proof. reflexivity. Qed.

Lemma star_imported_elem body m :
  m ∈ star_imported body ↔ FromImportStar m ∈ body.
Proof.
  unfold star_imported. rewrite list_elem_of_omap. split.
  - intros (s & Hin & Hs). destruct s; naive_solver.
  - intros Hin. by exists (FromImportStar m).
Qed.

Lemma plain_imported_elem body m :
  m ∈ plain_imported body ↔ Import m ∈ body.
Proof.
  unfold plain_imported. rewrite list_elem_of_omap. split.
  - intros (s & Hin & Hs). destruct s; naive_solver.
  - intros Hin. by exists (Import m).
Qed.

Section Completion.
Context (mode : import_mode) (w : world).

Lemma load_submodule_loaded m md :
  load_submodule w m = Loaded md ↔ w_sub w !! m = Some (Loaded md).
Proof.
  unfold load_submodule. destruct (w_sub w !! m) as [[?|?]|]; naive_solver.
Qed.

Lemma last_binding_is_Some body s x :
  s ∈ body → is_Some (binds mode w s x) →
  is_Some (last_binding mode w body x).
Proof.
  induction body as [|s' body IH]; intros Hin Hb; simpl.
  - by apply not_elem_of_nil in Hin.
  - apply elem_of_cons in Hin as [->|Hin].
    + by destruct (last_binding mode w body x).
    + destruct (IH Hin Hb) as [v ->]. eauto.
Qed.

Lemma last_binding_app b1 b2 x :
  last_binding mode w (b1 ++ b2) x =
  match last_binding mode w b2 x with
  | Some v => Some v
  | None => last_binding mode w b1 x
  end.
Proof.
  induction b1 as [|s b1 IH]; simpl.
  - by destruct (last_binding mode w b2 x).
  - rewrite IH. by destruct (last_binding mode w b2 x).
Qed.

Lemma last_binding_imports names x :
  last_binding mode w (Import <$> names) x =
  if decide (x ∈ names) then Some (ModObj (find_module mode w x).1) else None.
Proof.
  induction names as [|m names IH].
  - rewrite decide_False; [done | apply not_elem_of_nil].
  - rewrite fmap_cons. cbn [last_binding binds].
    rewrite IH. destruct (decide (x ∈ names)) as [Hin|Hnin].
    + rewrite decide_True; [done | by right].
    + destruct (decide (x = m)) as [->|Hne].
      * rewrite decide_True; [done | by left].
      * rewrite decide_False; [done|]. intros [?|?]%elem_of_cons; done.
Qed.

(** A star import that completed found its module and every exported name. *)
Lemma star_done m (ns ns' : namespace) :
  exec_stmt mode w (FromImportStar m) ns = Done ns' →
  ∃ md, w_sub w !! m = Some (Loaded md) ∧
        ∀ x, x ∈ public_names md → is_Some (m_dict md !! x).
Proof.
  simpl. destruct (load_submodule w m) as [md|e] eqn:Hl; [|done].
  intros H. exists md. split; [by apply load_submodule_loaded|].
  intros x Hx. by eapply import_all_from_defined.
Qed.

Lemma exec_body_star_loaded body (ns ns' : namespace) m :
  exec_body mode w body ns = Done ns' → FromImportStar m ∈ body →
  ∃ md, w_sub w !! m = Some (Loaded md) ∧
        ∀ x, x ∈ public_names md → is_Some (ns' !! x).
Proof.
  intros H Hin.
  destruct (exec_body_done_stmt _ _ _ _ _ _ H Hin) as (ns1 & ns2 & Hs).
  destruct (star_done _ _ _ Hs) as (md & Hm & Hdef).
  exists md. split; [done|]. intros x Hx.
  rewrite (exec_body_lookup _ _ _ _ _ x H).
  assert (is_Some (last_binding mode w body x)) as [v ->]; [|eauto].
  apply (last_binding_is_Some body (FromImportStar m)); [done|].
  cbn [binds]. apply load_submodule_loaded in Hm. rewrite Hm.
  rewrite decide_True; [auto | done].
Qed.

Lemma exec_body_name_loaded body (ns ns' : namespace) m x :
  exec_body mode w body ns = Done ns' → FromImport m x ∈ body →
  (∃ md, w_sub w !! m = Some (Loaded md) ∧ is_Some (m_dict md !! x)) ∧
  is_Some (ns' !! x).
Proof.
  intros H Hin.
  destruct (exec_body_done_stmt _ _ _ _ _ _ H Hin) as (ns1 & ns2 & Hs).
  simpl in Hs. destruct (load_submodule w m) as [md|e] eqn:Hl; [|done].
  unfold import_from in Hs. destruct (m_dict md !! x) as [v|] eqn:Hx; [|done].
  split.
  - exists md. split; [by apply load_submodule_loaded | by rewrite Hx].
  - rewrite (exec_body_lookup _ _ _ _ _ x H).
    assert (is_Some (last_binding mode w body x)) as [v' ->]; [|eauto].
    apply (last_binding_is_Some body (FromImport m x)); [done|].
    cbn [binds]. rewrite Hl, decide_True; [by rewrite Hx | done].
Qed.

Lemma exec_body_total body :
  Forall (λ s, ∀ ns : namespace, ∃ ns', exec_stmt mode w s ns = Done ns') body →
  ∀ ns : namespace, ∃ ns', exec_body mode w body ns = Done ns'.
Proof.
  induction 1 as [|s body Hs _ IH]; intros ns; simpl; [eauto|].
  destruct (Hs ns) as [ns1 ->]. apply IH.
Qed.

Lemma star_importable_total m (ns : namespace) :
  star_importable w m = true →
  ∃ ns', exec_stmt mode w (FromImportStar m) ns = Done ns'.
Proof.
  unfold star_importable. simpl. unfold load_submodule.
  destruct (w_sub w !! m) as [[md|e]|]; try done.
  unfold exports_defined. rewrite forallb_forall. intros H.
  apply import_all_from_total. intros x Hx%list_elem_of_In.
  specialize (H x Hx). by apply bool_decide_eq_true in H.
Qed.

Lemma name_importable_total m x (ns : namespace) :
  name_importable w m x = true →
  ∃ ns', exec_stmt mode w (FromImport m x) ns = Done ns'.
Proof.
  unfold name_importable. simpl. unfold load_submodule, import_from.
  destruct (w_sub w !! m) as [[md|e]|]; try done.
  intros [v Hv]%bool_decide_eq_true. rewrite Hv. eauto.
Qed.

End Completion.

Lemma find_module_sub w m :
  is_Some (w_sub w !! m) →
  find_module ImplicitRelative w m =
  (qualified m, default (Raised (no_module m)) (w_sub w !! m)).
Proof. intros [r Hr]. unfold find_module. by rewrite Hr. Qed.

Lemma submodule_loads_total w m (ns : namespace) :
  submodule_loads w m = true →
  exec_stmt ImplicitRelative w (Import m) ns = Done (<[m := ModObj (qualified m)]> ns).
Proof.
  unfold submodule_loads. simpl.
  by destruct (w_sub w !! m) as [[md|e]|].
Qed.



(** * The claims *)

(** C1. When the initializer has run to its end, each of the ten modules it
    star-imports was loaded, and every public name of each is bound in the
    package namespace; so is [BlockstackAPIEndpoint], taken from [rpc]. *)
Theorem public_symbols_bound mode w (ns0 ns : namespace) :
  exec_body mode w init_body ns0 = Done ns →
  (∀ m, m ∈ star_modules →
     ∃ md, w_sub w !! m = Some (Loaded md) ∧
           ∀ x, x ∈ public_names md → is_Some (ns !! x)) ∧
  (∃ md, w_sub w !! "rpc" = Some (Loaded md) ∧
         is_Some (m_dict md !! "BlockstackAPIEndpoint")) ∧
  is_Some (ns !! "BlockstackAPIEndpoint").
Proof.
  intros H. split.
  - intros m Hm. eapply exec_body_star_loaded; [exact H|].
    apply star_imported_elem. by rewrite star_imported_init.
  - eapply exec_body_name_loaded; [exact H|]. in_list.
Qed.

Lemma sample_result_done :
  exec_body ImplicitRelative sample_world init_body ∅ = Done sample_ns.
Proof. vm_compute. reflexivity. Defined.

Lemma public_symbols_bound_witness :
  exec_body ImplicitRelative sample_world init_body ∅ = Done sample_ns ∧
  ((∀ m, m ∈ star_modules →
     ∃ md, w_sub sample_world !! m = Some (Loaded md) ∧
           ∀ x, x ∈ public_names md → is_Some (sample_ns !! x)) ∧
   (∃ md, w_sub sample_world !! "rpc" = Some (Loaded md) ∧
          is_Some (m_dict md !! "BlockstackAPIEndpoint")) ∧
   is_Some (sample_ns !! "BlockstackAPIEndpoint")).
Proof.
  split; [exact sample_result_done|].
  apply (public_symbols_bound ImplicitRelative sample_world ∅ sample_ns).
  vm_compute. reflexivity.
Defined.

(** The plain imports at the end bind each name to the module found for it,
    whatever the re-exports stored under that name before. *)
Lemma init_lookup_submodule_attr mode w (ns0 ns : namespace) m :
  exec_body mode w init_body ns0 = Done ns →
  m ∈ submodule_attrs →
  ns !! m = Some (ModObj (find_module mode w m).1).
Proof.
  intros H Hm. rewrite (exec_body_lookup _ _ _ _ _ m H).
  rewrite init_body_split, last_binding_app, submodule_imports_eq.
  rewrite last_binding_imports, decide_True; done.
Qed.

(** A name the plain imports do not mention keeps what the re-exports left. *)
Lemma init_lookup_other mode w (ns0 ns : namespace) x :
  exec_body mode w init_body ns0 = Done ns →
  x ∉ submodule_attrs →
  ns !! x = match last_binding mode w reexports x with
            | Some v => Some v
            | None => ns0 !! x
            end.
Proof.
  intros H Hx. rewrite (exec_body_lookup _ _ _ _ _ x H).
  rewrite init_body_split, last_binding_app, submodule_imports_eq.
  rewrite last_binding_imports, decide_False; done.
Qed.

(** Every submodule a completed initializer names in a [from] import exists
    in the package. *)
Lemma init_done_reexported_loaded mode w (ns0 ns : namespace) m :
  exec_body mode w init_body ns0 = Done ns →
  m ∈ star_modules ∨ m = "rpc" →
  ∃ md, w_sub w !! m = Some (Loaded md).
Proof.
  intros H [Hm| ->].
  - destruct (exec_body_star_loaded mode w _ _ _ m H) as (md & ? & _); [|eauto].
    apply star_imported_elem. by rewrite star_imported_init.
  - destruct (exec_body_name_loaded mode w _ _ _ "rpc" "BlockstackAPIEndpoint" H)
      as [(md & ? & _) _]; [in_list | eauto].
Qed.

(** C2. Under Python 2 import rules, when the initializer has run to its end
    and the package has a [storage] submodule, each of the nine names
    [atlas], [operations], [nameset], [storage], [config], [fast_sync],
    [snv], [rpc], [subdomains] is bound in the package namespace to the
    module object of the package's submodule of that name. *)
Theorem submodule_names_resolve w (ns0 ns : namespace) :
  exec_body ImplicitRelative w init_body ns0 = Done ns →
  is_Some (w_sub w !! "storage") →
  ∀ m, m ∈ submodule_attrs → ns !! m = Some (ModObj (qualified m)).
Proof.
  intros H Hst m Hm.
  rewrite (init_lookup_submodule_attr _ _ _ _ _ H Hm).
  assert (is_Some (w_sub w !! m)) as Hsome.
  { destruct (decide (m = "storage")) as [->|Hne]; [done|].
    destruct (init_done_reexported_loaded _ _ _ _ m H) as [md ->]; [|eauto].
    list_cases Hm; first [by right | by left; in_list | done]. }
  by rewrite (find_module_sub _ _ Hsome).
Qed.

Lemma submodule_names_resolve_witness :
  (exec_body ImplicitRelative sample_world init_body ∅ = Done sample_ns ∧
   is_Some (w_sub sample_world !! "storage")) ∧
  ∀ m, m ∈ submodule_attrs → sample_ns !! m = Some (ModObj (qualified m)).
Proof.
  assert (is_Some (w_sub sample_world !! "storage")) as Hst.
  { vm_compute. eauto. }
  split; [split; [exact sample_result_done | exact Hst]|].
  exact (submodule_names_resolve sample_world ∅ sample_ns sample_result_done Hst).
Defined.




Section Frame.
Context (mode : import_mode) (w : world).

Lemma exec_body_ext w' body :
  Forall (λ s, ∀ ns : namespace, exec_stmt mode w' s ns = exec_stmt mode w s ns) body →
  ∀ ns : namespace, exec_body mode w' body ns = exec_body mode w body ns.
Proof.
  induction 1 as [|s body Hs _ IH]; intros ns; simpl; [done|].
  rewrite Hs. destruct (exec_stmt mode w s ns); [apply IH | done].
Qed.

(** A statement that names another module does not see the change. *)
Lemma exec_stmt_set_other m r s (ns : namespace) :
  stmt_module s ≠ m →
  exec_stmt mode (set_submodule w m r) s ns = exec_stmt mode w s ns.
Proof.
  intros Hne. destruct s as [m'|m' x|m']; simpl in *;
    unfold load_submodule, find_module; simpl;
    by rewrite lookup_insert_ne.
Qed.

(** [import m] only needs [m] to load: it never reads the module. *)
Lemma exec_stmt_set_import m md md' (ns : namespace) :
  w_sub w !! m = Some (Loaded md) →
  exec_stmt mode (set_submodule w m (Loaded md')) (Import m) ns =
  exec_stmt mode w (Import m) ns.
Proof.
  intros Hm. simpl. unfold find_module. simpl.
  rewrite lookup_insert_eq, Hm. by destruct mode.
Qed.


End Frame.















(** C8. [storage] is plainly imported and named by no [from] import, so the
    initializer binds the name [storage] to the submodule (Python 2 rules)
    and gives the same result whatever [storage] defines; [b40], [scripts]
    and [hashing] are star-imported, so their public names are bound, and
    no plain import names them. *)
Theorem reexports_and_attributes_differ w md md' (ns0 ns : namespace) :
  exec_body ImplicitRelative w init_body ns0 = Done ns →
  w_sub w !! "storage" = Some (Loaded md) →
  ("storage" ∈ plain_imported init_body ∧
   ("storage" ∉ star_imported init_body) ∧
   ("storage" ∉ (from_imported init_body).*1) ∧
   ns !! "storage" = Some (ModObj (qualified "storage")) ∧
   exec_body ImplicitRelative (set_submodule w "storage" (Loaded md')) init_body ns0 =
     Done ns) ∧
  (∀ m, m ∈ ["b40"; "scripts"; "hashing"] →
     m ∈ star_imported init_body ∧
     (m ∉ plain_imported init_body) ∧
     ∃ mdm, w_sub w !! m = Some (Loaded mdm) ∧
            ∀ x, x ∈ public_names mdm → is_Some (ns !! x)).
Proof.
  intros H Hst. split.
  - split; [compute_done|]. split; [compute_done|]. split; [compute_done|]. split.
    + rewrite (init_lookup_submodule_attr _ _ _ _ "storage" H); [|compute_done].
      rewrite find_module_sub; [done | by rewrite Hst].
    + rewrite <- H. apply exec_body_ext. unfold init_body.
      repeat apply Forall_cons_2; try apply Forall_nil_2; intros ns1.
      all: first
        [ by apply exec_stmt_set_other
        | by eapply exec_stmt_set_import ].
  - intros m Hm.
    assert (m ∈ star_modules) as Hstar by (list_cases Hm; in_list).
    split; [by rewrite star_imported_init|].
    split; [list_cases Hm; compute_done|].
    eapply exec_body_star_loaded; [exact H|].
    apply star_imported_elem. by rewrite star_imported_init.
Qed.

Lemma reexports_and_attributes_differ_witness :
  (exec_body ImplicitRelative sample_world init_body ∅ = Done sample_ns ∧
   w_sub sample_world !! "storage" = Some (Loaded sample_storage)) ∧
  sample_ns !! "storage" = Some (ModObj (qualified "storage")) ∧
  exec_body ImplicitRelative (set_submodule sample_world "storage" (Loaded other_storage))
    init_body ∅ = Done sample_ns.
Proof.
  assert (w_sub sample_world !! "storage" = Some (Loaded sample_storage)) as Hst.
  { vm_compute. reflexivity. }
  split; [split; [exact sample_result_done | exact Hst]|].
  pose proof (reexports_and_attributes_differ sample_world sample_storage other_storage
                ∅ sample_ns sample_result_done Hst) as [(_ & _ & _ & Hb & Hi) _].
  split; [exact Hb | exact Hi].
Defined.

(** The dotted imports do not depend on the import rules in force. *)
Lemma exec_reexports_mode mode mode' w (ns : namespace) :
  exec_body mode w reexports ns = exec_body mode' w reexports ns.
Proof. reflexivity. Qed.

Lemma reexports_done_loads mode w (ns0 ns1 : namespace) m :
  exec_body mode w reexports ns0 = Done ns1 →
  m ∈ submodule_attrs → m ≠ "storage" →
  submodule_loads w m = true.
Proof.
  intros H Hm Hne. unfold submodule_loads.
  assert (∃ md, w_sub w !! m = Some (Loaded md)) as [md ->]; [|done].
  list_cases Hm; try done.
  all: match goal with
       | |- ∃ md, w_sub _ !! ?m = _ =>
           first
             [ destruct (exec_body_star_loaded mode w _ _ _ m H)
                 as (md & ? & _); [compute_done | by eauto]
             | destruct (exec_body_name_loaded mode w _ _ _ m
                           "BlockstackAPIEndpoint" H)
                 as [(md & ? & _) _]; [compute_done | by eauto] ]
       end.
Qed.

Lemma exec_plain_imports_py2 w names (ns : namespace) :
  (∀ m, m ∈ names → submodule_loads w m = true) →
  ∃ ns', exec_body ImplicitRelative w (Import <$> names) ns = Done ns'.
Proof.
  intros H. apply exec_body_total. apply Forall_fmap, Forall_forall.
  intros m Hm ns1. eexists. by apply submodule_loads_total, H.
Qed.

(** C9. Take a world with no top-level module named like any of the nine
    plainly imported names, in which the dotted imports complete and the
    package has a loadable [storage].  Under Python 2 implicit-relative
    rules the initializer completes and binds each of the nine names to the
    package's own submodule.  Under absolute-import rules each plain import
    looks only at the top level and raises [ImportError], so the initializer
    stops at [import atlas] with [ImportError].  And whenever the
    initializer does complete under absolute-import rules, the nine names
    are bound to top-level modules, never to the package's submodules. *)
Theorem plain_imports_need_python2 w (ns0 ns1 : namespace) :
  (∀ m, m ∈ submodule_attrs → w_top w !! m = None) →
  exec_body AbsoluteImport w reexports ns0 = Done ns1 →
  submodule_loads w "storage" = true →
  (∃ ns, exec_body ImplicitRelative w init_body ns0 = Done ns ∧
         ∀ m, m ∈ submodule_attrs → ns !! m = Some (ModObj (qualified m))) ∧
  (∀ m (ns : namespace), m ∈ submodule_attrs →
     exec_stmt AbsoluteImport w (Import m) ns =
     Raise (ImportError ("No module named " +:+ m)) ns) ∧
  exec_body AbsoluteImport w init_body ns0 =
    Raise (ImportError "No module named atlas") ns1 ∧
  (∀ w' (ns0' ns' : namespace),
     exec_body AbsoluteImport w' init_body ns0' = Done ns' →
     ∀ m, m ∈ submodule_attrs →
       ns' !! m = Some (ModObj m) ∧ ModObj m ≠ ModObj (qualified m)).
Proof.
  intros Htop Hre Hst.
  assert (∀ m (ns : namespace), m ∈ submodule_attrs →
            exec_stmt AbsoluteImport w (Import m) ns = Raise (no_module m) ns) as Habs.
  { intros m ns Hm. simpl. by rewrite (Htop m Hm). }
  split; [|split; [exact Habs | split]].
  - assert (∀ m, m ∈ submodule_attrs → submodule_loads w m = true) as Hsub.
    { intros m Hm. destruct (decide (m = "storage")) as [->|Hne]; [done|].
      by eapply reexports_done_loads. }
    destruct (exec_plain_imports_py2 w submodule_attrs ns1 Hsub) as [ns Hns].
    assert (exec_body ImplicitRelative w init_body ns0 = Done ns) as Hdone.
    { rewrite init_body_split, exec_body_app.
      rewrite (exec_reexports_mode _ AbsoluteImport), Hre.
      by rewrite submodule_imports_eq. }
    exists ns. split; [done|]. intros m Hm.
    rewrite (init_lookup_submodule_attr _ _ _ _ _ Hdone Hm).
    rewrite find_module_sub; [done|].
    specialize (Hsub m Hm). unfold submodule_loads in Hsub.
    by destruct (w_sub w !! m).
  - rewrite init_body_split, exec_body_app, Hre.
    change submodule_imports with (Import "atlas" :: drop 12 init_body).
    cbn [exec_body]. rewrite Habs; [done | in_list].
  - intros w' ns0' ns' Hdone m Hm. split.
    + rewrite (init_lookup_submodule_attr _ _ _ _ _ Hdone Hm).
      unfold find_module. by destruct (w_top w' !! m).
    + list_cases Hm; compute_done.
Qed.

Lemma plain_imports_need_python2_witness :
  ((∀ m, m ∈ submodule_attrs → w_top sample_world !! m = None) ∧
   exec_body AbsoluteImport sample_world reexports ∅ =
     Done (match exec_body AbsoluteImport sample_world reexports ∅ with
           | Done ns | Raise _ ns => ns
           end) ∧
   submodule_loads sample_world "storage" = true) ∧
  exec_body AbsoluteImport sample_world init_body ∅ =
    Raise (ImportError "No module named atlas")
          (match exec_body AbsoluteImport sample_world reexports ∅ with
           | Done ns | Raise _ ns => ns
           end).
Proof.
  assert (∀ m, m ∈ submodule_attrs → w_top sample_world !! m = None) as H1.
  { intros m _. apply lookup_empty. }
  assert (exec_body AbsoluteImport sample_world reexports ∅ =
          Done (match exec_body AbsoluteImport sample_world reexports ∅ with
                | Done ns | Raise _ ns => ns
                end)) as H2.
  { vm_compute. reflexivity. }
  assert (submodule_loads sample_world "storage" = true) as H3.
  { vm_compute. reflexivity. }
  split; [split; [exact H1 | split; [exact H2 | exact H3]]|].
  exact (proj1 (proj2 (proj2
    (plain_imports_need_python2 sample_world ∅ _ H1 H2 H3)))).
Defined.


(** * Further properties of the initializer *)

Section Importable.
Context (mode : import_mode) (w : world).

(** Whether a statement completes depends on the world, not on the
    namespace it starts from. *)
Lemma exec_stmt_done_iff s (ns : namespace) :
  (∃ ns', exec_stmt mode w s ns = Done ns') ↔ stmt_importable mode w s = true.
Proof.
  split.
  - intros [ns' H]. destruct s as [m|m x|m]; cbn [stmt_importable].
    + destruct (star_done mode w _ _ _ H) as (md & Hm & Hdef).
      unfold star_importable, exports_defined. rewrite Hm.
      apply forallb_forall. intros x Hx%list_elem_of_In.
      by apply bool_decide_eq_true, Hdef.
    + simpl in H. unfold name_importable. unfold load_submodule in H.
      destruct (w_sub w !! m) as [[md|e]|]; try done.
      unfold import_from in H. apply bool_decide_eq_true.
      by destruct (m_dict md !! x).
    + simpl in H. unfold plain_importable.
      by destruct (find_module mode w m) as [q [md|e]].
  - destruct s as [m|m x|m]; cbn [stmt_importable].
    + apply star_importable_total.
    + apply name_importable_total.
    + unfold plain_importable. simpl.
      destruct (find_module mode w m) as [q [md|e]]; [eauto | done].
Qed.

Lemma exec_body_done_iff body (ns : namespace) :
  (∃ ns', exec_body mode w body ns = Done ns') ↔
  Forall (λ s, stmt_importable mode w s = true) body.
Proof.
  revert ns. induction body as [|s body IH]; intros ns.
  - split; [constructor | simpl; eauto].
  - rewrite Forall_cons. simpl. split.
    + intros [ns' H].
      destruct (exec_stmt mode w s ns) as [ns1|e ns1] eqn:Hs; [|done]. split.
      * apply (exec_stmt_done_iff s ns). eauto.
      * apply (IH ns1). eauto.
    + intros [Hs Hb]. apply (exec_stmt_done_iff s ns) in Hs as [ns1 ->].
      by apply IH.
Qed.


(** Names are stored, never removed, also on the way to an exception. *)
Lemma import_all_from_mono md names (ns : namespace) x :
  is_Some (ns !! x) → is_Some (outcome_ns (import_all_from md names ns) !! x).
Proof.
  revert ns. induction names as [|y names IH]; intros ns Hx; simpl; [done|].
  destruct (m_dict md !! y) as [v|]; [|done].
  apply IH. rewrite lookup_insert_is_Some. destruct (decide (y = x)); auto.
Qed.

Lemma exec_stmt_mono s (ns : namespace) x :
  is_Some (ns !! x) → is_Some (outcome_ns (exec_stmt mode w s ns) !! x).
Proof.
  intros Hx. destruct s as [m|m y|m]; simpl.
  - destruct (load_submodule w m); [by apply import_all_from_mono | done].
  - destruct (load_submodule w m) as [md|e]; [|done].
    unfold import_from. destruct (m_dict md !! y); [|done]. simpl.
    rewrite lookup_insert_is_Some. destruct (decide (y = x)); auto.
  - destruct (find_module mode w m) as [q [md|e]]; [|done]. simpl.
    rewrite lookup_insert_is_Some. destruct (decide (m = x)); auto.
Qed.

Lemma exec_body_mono body (ns : namespace) x :
  is_Some (ns !! x) → is_Some (outcome_ns (exec_body mode w body ns) !! x).
Proof.
  revert ns. induction body as [|s body IH]; intros ns Hx; simpl; [done|].
  pose proof (exec_stmt_mono s ns x Hx) as Hs.
  destruct (exec_stmt mode w s ns) as [ns1|e ns1]; [by apply IH | done].
Qed.




End Importable.

Lemma from_imported_elem body m x :
  (m, x) ∈ from_imported body ↔ FromImport m x ∈ body.
Proof.
  unfold from_imported. rewrite list_elem_of_omap. split.
  - intros (s & Hin & Hs). destruct s; naive_solver.
  - intros Hin. by exists (FromImport m x).
Qed.

(** The statements of the initializer, by kind. *)
Lemma init_body_stmt s :
  s ∈ init_body ↔
  (∃ m, s = FromImportStar m ∧ m ∈ star_modules) ∨
  s = FromImport "rpc" "BlockstackAPIEndpoint" ∨
  (∃ m, s = Import m ∧ m ∈ submodule_attrs).
Proof.
  split.
  - intros Hs. destruct s as [m|m x|m].
    + left. exists m. split; [done|].
      rewrite <- star_imported_init. by apply star_imported_elem.
    + right; left. apply from_imported_elem in Hs.
      rewrite from_imported_init in Hs. apply list_elem_of_singleton in Hs.
      by injection Hs as -> ->.
    + right; right. exists m. split; [done|].
      rewrite <- plain_imported_init. by apply plain_imported_elem.
  - intros [(m & -> & Hm)|[->|(m & -> & Hm)]].
    + apply star_imported_elem. by rewrite star_imported_init.
    + compute_done.
    + apply plain_imported_elem. by rewrite plain_imported_init.
Qed.

(** X1. The initializer runs to its end exactly when every star-imported
    submodule loads and defines the names it exports, [rpc] loads and
    defines [BlockstackAPIEndpoint], and each of the nine plain imports
    finds a module that loads; the namespace it starts from plays no part. *)
Theorem import_succeeds_iff mode w (ns0 : namespace) :
  (∃ ns, exec_body mode w init_body ns0 = Done ns) ↔
  (∀ m, m ∈ star_modules → star_importable w m = true) ∧
  name_importable w "rpc" "BlockstackAPIEndpoint" = true ∧
  (∀ m, m ∈ submodule_attrs → plain_importable mode w m = true).
Proof.
  rewrite exec_body_done_iff, Forall_forall. split.
  - intros H. split; [|split].
    + intros m Hm. apply (H (FromImportStar m)), init_body_stmt. eauto.
    + apply (H (FromImport "rpc" "BlockstackAPIEndpoint")), init_body_stmt. eauto.
    + intros m Hm. apply (H (Import m)), init_body_stmt. eauto 10.
  - intros (Hstar & Hrpc & Hplain) s Hs.
    apply init_body_stmt in Hs as [(m & -> & Hm)|[->|(m & -> & Hm)]]; simpl; auto.
Qed.



(** X3. The initializer never unbinds a name: whatever was bound before the
    first statement is still bound in the namespace it leaves, whether it
    completes or stops at an exception. *)
Theorem initializer_never_unbinds mode w (ns0 : namespace) x :
  is_Some (ns0 !! x) →
  is_Some (outcome_ns (exec_body mode w init_body ns0) !! x).
Proof. apply exec_body_mono. Qed.

Lemma initializer_never_unbinds_witness :
  is_Some (({[ "__name__" := Obj 100 ]} : namespace) !! "__name__") ∧
  is_Some (outcome_ns (exec_body ImplicitRelative failing_world init_body
                         {[ "__name__" := Obj 100 ]}) !! "__name__").
Proof.
  assert (is_Some (({[ "__name__" := Obj 100 ]} : namespace) !! "__name__")) as H.
  { vm_compute. eauto. }
  split; [exact H|].
  exact (initializer_never_unbinds ImplicitRelative failing_world
           {[ "__name__" := Obj 100 ]} "__name__" H).
Defined.









(** X6. [storage] is the one plainly imported module that no dotted import
    has loaded before.  Under Python 2 rules, when the package has no
    [storage] submodule and the fourteen statements before [import storage]
    complete: if a top-level [storage] loads, the initializer completes with
    the name [storage] bound to that top-level module and the other eight
    names bound to the package's submodules; if the top-level [storage]
    raises, that exception ends the initializer; if there is none, the
    initializer ends with [ImportError]. *)
Theorem storage_falls_back_to_top_level w (ns0 ns1 : namespace) :
  w_sub w !! "storage" = None →
  exec_body ImplicitRelative w (take 14 init_body) ns0 = Done ns1 →
  match w_top w !! "storage" with
  | Some (Loaded _) =>
      ∃ ns, exec_body ImplicitRelative w init_body ns0 = Done ns ∧
            ns !! "storage" = Some (ModObj "storage") ∧
            ∀ m, m ∈ submodule_attrs → m ≠ "storage" →
                 ns !! m = Some (ModObj (qualified m))
  | Some (Raised e) =>
      exec_body ImplicitRelative w init_body ns0 = Raise e ns1
  | None =>
      exec_body ImplicitRelative w init_body ns0 =
      Raise (ImportError "No module named storage") ns1
  end.
Proof.
  intros Hsub Hpre.
  assert (init_body = take 14 init_body ++
            Import "storage" ::
            (Import <$> ["config"; "fast_sync"; "snv"; "rpc"; "subdomains"]))
    as Hsplit by reflexivity.
  assert (exec_body ImplicitRelative w init_body ns0 =
          match exec_stmt ImplicitRelative w (Import "storage") ns1 with
          | Done ns2 =>
              exec_body ImplicitRelative w
                (Import <$> ["config"; "fast_sync"; "snv"; "rpc"; "subdomains"]) ns2
          | Raise e ns2 => Raise e ns2
          end) as Hrun.
  { rewrite Hsplit at 1. by rewrite exec_body_app, Hpre. }
  simpl exec_stmt in Hrun. rewrite Hsub in Hrun.
  destruct (w_top w !! "storage") as [[md|e]|] eqn:Htop; [|done..].
  assert (∀ m, m ∈ ["config"; "fast_sync"; "snv"; "rpc"; "subdomains"] →
               submodule_loads w m = true) as Hloads.
  { intros m Hm. unfold submodule_loads.
    assert (∃ md', w_sub w !! m = Some (Loaded md')) as [md' ->]; [|done].
    list_cases Hm.
    all: match goal with
         | |- ∃ md', w_sub _ !! ?m = _ =>
             first
               [ destruct (exec_body_star_loaded ImplicitRelative w _ _ _ m Hpre)
                   as (md' & ? & _); [compute_done | by eauto]
               | destruct (exec_body_name_loaded ImplicitRelative w _ _ _ m
                             "BlockstackAPIEndpoint" Hpre)
                   as [(md' & ? & _) _]; [compute_done | by eauto] ]
         end. }
  destruct (exec_plain_imports_py2 w _ (<["storage" := ModObj "storage"]> ns1) Hloads)
    as [ns Hns].
  rewrite Hns in Hrun. exists ns. split; [done|]. split.
  - rewrite (init_lookup_submodule_attr _ _ _ _ "storage" Hrun); [|compute_done].
    unfold find_module. by rewrite Hsub, Htop.
  - intros m Hm Hne.
    rewrite (init_lookup_submodule_attr _ _ _ _ m Hrun Hm).
    rewrite find_module_sub; [done|].
    destruct (init_done_reexported_loaded _ _ _ _ m Hrun) as [md' ->]; [|eauto].
    list_cases Hm; first [by right | by left; in_list | done].
Qed.

Lemma storage_falls_back_to_top_level_witness :
  (w_sub fallback_world !! "storage" = None ∧
   exec_body ImplicitRelative fallback_world (take 14 init_body) ∅ =
     Done (outcome_ns (exec_body ImplicitRelative fallback_world
                         (take 14 init_body) ∅))) ∧
  ∃ ns, exec_body ImplicitRelative fallback_world init_body ∅ = Done ns ∧
        ns !! "storage" = Some (ModObj "storage") ∧
        ∀ m, m ∈ submodule_attrs → m ≠ "storage" →
             ns !! m = Some (ModObj (qualified m)).
Proof.
  assert (w_sub fallback_world !! "storage" = None) as H1.
  { vm_compute. reflexivity. }
  assert (exec_body ImplicitRelative fallback_world (take 14 init_body) ∅ =
          Done (outcome_ns (exec_body ImplicitRelative fallback_world
                              (take 14 init_body) ∅))) as H2.
  { vm_compute. reflexivity. }
  split; [split; [exact H1 | exact H2]|].
  exact (storage_falls_back_to_top_level fallback_world ∅ _ H1 H2).
Defined.






(** X9. Under Python 2 rules a top-level module never shadows a submodule
    of the package: when the package has all nine plainly imported
    submodules, the initializer gives the same result whatever modules of
    those or other names exist at the top level, even ones that raise. *)
Theorem top_level_never_consulted w top' (ns0 : namespace) :
  (∀ m, m ∈ submodule_attrs → is_Some (w_sub w !! m)) →
  exec_body ImplicitRelative (World (w_sub w) top') init_body ns0 =
  exec_body ImplicitRelative w init_body ns0.
Proof.
  intros Hsub. apply exec_body_ext, Forall_forall. intros s Hs ns.
  apply init_body_stmt in Hs as [(m & -> & Hm)|[->|(m & -> & Hm)]]; [done..|].
  cbn [exec_stmt]. rewrite find_module_sub by exact (Hsub m Hm).
  by rewrite (find_module_sub w m (Hsub m Hm)).
Qed.

Lemma sample_world_has_submodules m :
  m ∈ submodule_attrs → is_Some (w_sub sample_world !! m).
Proof. intros Hm. list_cases Hm; vm_compute; eauto. Defined.

Lemma top_level_never_consulted_witness :
  (∀ m, m ∈ submodule_attrs → is_Some (w_sub sample_world !! m)) ∧
  exec_body ImplicitRelative (World (w_sub sample_world) shadowed_top) init_body ∅ =
  exec_body ImplicitRelative sample_world init_body ∅.
Proof.
  split; [exact sample_world_has_submodules|].
  exact (top_level_never_consulted sample_world shadowed_top ∅
           sample_world_has_submodules).
Defined.

(** X10. Under absolute-import rules the initializer looks into the package
    only for the eleven submodules its dotted imports name: two worlds with
    the same top level that agree on those eleven give the same result, so
    the package's own [storage] is never consulted. *)
Theorem absolute_ignores_package_for_plain w w' (ns0 : namespace) :
  w_top w' = w_top w →
  (∀ m, m ∈ star_modules ∨ m = "rpc" → w_sub w' !! m = w_sub w !! m) →
  exec_body AbsoluteImport w' init_body ns0 = exec_body AbsoluteImport w init_body ns0.
Proof.
  intros Htop Hsub. apply exec_body_ext, Forall_forall. intros s Hs ns.
  apply init_body_stmt in Hs as [(m & -> & Hm)|[->|(m & -> & Hm)]];
    cbn [exec_stmt]; unfold load_submodule, find_module.
  - rewrite Hsub; [done | by left].
  - rewrite Hsub; [done | by right].
  - by rewrite Htop.
Qed.

Lemma absolute_ignores_package_for_plain_witness :
  (w_top (World (delete "storage" (w_sub dual_world)) (w_top dual_world)) =
     w_top dual_world ∧
   ∀ m, m ∈ star_modules ∨ m = "rpc" →
        w_sub (World (delete "storage" (w_sub dual_world)) (w_top dual_world)) !! m =
        w_sub dual_world !! m) ∧
  exec_body AbsoluteImport
    (World (delete "storage" (w_sub dual_world)) (w_top dual_world)) init_body ∅ =
  exec_body AbsoluteImport dual_world init_body ∅.
Proof.
  assert (∀ m, m ∈ star_modules ∨ m = "rpc" →
            w_sub (World (delete "storage" (w_sub dual_world)) (w_top dual_world)) !! m =
            w_sub dual_world !! m) as H2.
  { intros m [Hm| ->]; [list_cases Hm|]; vm_compute; reflexivity. }
  assert (w_top (World (delete "storage" (w_sub dual_world)) (w_top dual_world)) =
          w_top dual_world) as H1 by reflexivity.
  split; [split; [exact H1 | exact H2]|].
  exact (absolute_ignores_package_for_plain dual_world
           (World (delete "storage" (w_sub dual_world)) (w_top dual_world)) ∅
           H1 H2).
Defined.



(** X12. The re-exported names do not depend on the import rules: when the
    initializer completes under Python 2 rules and under absolute-import
    rules in the same world, the two namespaces agree on every name other
    than the nine plainly imported ones. *)
Theorem flat_names_same_under_both_rules w (ns0 nsr nsa : namespace) x :
  exec_body ImplicitRelative w init_body ns0 = Done nsr →
  exec_body AbsoluteImport w init_body ns0 = Done nsa →
  x ∉ submodule_attrs →
  nsr !! x = nsa !! x.
Proof.
  intros Hr Ha Hx.
  rewrite (init_lookup_other _ _ _ _ _ Hr Hx), (init_lookup_other _ _ _ _ _ Ha Hx).
  reflexivity.
Qed.

Lemma flat_names_same_under_both_rules_witness :
  (exec_body ImplicitRelative dual_world init_body ∅ =
     Done (outcome_ns (exec_body ImplicitRelative dual_world init_body ∅)) ∧
   exec_body AbsoluteImport dual_world init_body ∅ =
     Done (outcome_ns (exec_body AbsoluteImport dual_world init_body ∅)) ∧
   "MAX_PEERS" ∉ submodule_attrs) ∧
  outcome_ns (exec_body ImplicitRelative dual_world init_body ∅) !! "MAX_PEERS" =
  outcome_ns (exec_body AbsoluteImport dual_world init_body ∅) !! "MAX_PEERS".
Proof.
  assert (exec_body ImplicitRelative dual_world init_body ∅ =
          Done (outcome_ns (exec_body ImplicitRelative dual_world init_body ∅))) as H1.
  { vm_compute. reflexivity. }
  assert (exec_body AbsoluteImport dual_world init_body ∅ =
          Done (outcome_ns (exec_body AbsoluteImport dual_world init_body ∅))) as H2.
  { vm_compute. reflexivity. }
  assert ("MAX_PEERS" ∉ submodule_attrs) as H3 by compute_done.
  split; [split; [exact H1 | split; [exact H2 | exact H3]]|].
  exact (flat_names_same_under_both_rules dual_world ∅ _ _ "MAX_PEERS" H1 H2 H3).
Defined.
